(** * Data migration 0097: load_initial_safe_data / reverse_initial_safe_data

    A shallow embedding of
    [pkg/services/migration/data-migrations/0097_load_initial_safe_data.py].

    The migration has two hooks.  [load_initial_safe_data] tests a fixed path
    with [os.path.exists] and, when it is there, runs
    [call_command('loaddata', fixture_file, verbosity=0)] inside
    [try: ... except Exception: pass].  [reverse_initial_safe_data] resolves
    six models through [apps.get_model] and then, inside a second
    [try: ... except Exception: pass], runs [Model.objects.all().delete()]
    on each of them.

    The hooks are registered as [migrations.RunPython(code=..., reverse_code=
    ...)]: [load_initial_safe_data] is what runs when the migration is
    applied, [reverse_initial_safe_data] when it is reversed.

    The filesystem, the database, Django's management command and the ORM are
    not part of the file: the store is explicit state, and the two external
    primitives that act on it are fields of a record the hooks are
    parametrised by.  Every call to the outside world is appended to a trace. *)

From stdpp Require Import gmap strings list fin_maps.
From Stdlib Require Import ZArith Lia.

Open Scope string_scope.
Open Scope Z_scope.
Open Scope list_scope.

(** ** Python exceptions and outcomes *)

(** Python's exception hierarchy as far as [except Exception] can tell it
    apart: an exception object is an instance of a class that derives from
    [Exception] (LookupError, IntegrityError, CommandError, OSError, ...),
    or of a class that derives from [BaseException] only (KeyboardInterrupt,
    SystemExit, GeneratorExit). *)
Inductive PyExc : Type :=
  | ExceptionInstance (cls : string)
  | BaseExceptionOnly (cls : string).

Definition isinstance_Exception (e : PyExc) : bool :=
  match e with
  | ExceptionInstance _ => true
  | BaseExceptionOnly _ => false
  end.

Inductive Outcome (A : Type) : Type :=
  | Returns (a : A)
  | Raises (e : PyExc).
Arguments Returns {A} a.
Arguments Raises {A} e.

Definition returns_normally {A} (o : Outcome A) : bool :=
  match o with Returns _ => true | Raises _ => false end.

(** ** The store *)

(** A model is named by its app label and its object name, the two arguments
    of [apps.get_model]. *)
Definition Model : Type := string * string.

Record Row : Type := mkRow { pk : Z; fields : string }.

(** The filesystem maps the paths that exist to their content; the database
    maps a model to the rows of its table. *)
Record Store : Type := mkStore {
  files : gmap string string;
  tables : gmap Model (list Row)
}.

Definition rows (s : Store) (m : Model) : list Row := tables s !!! m.

(** ** What the hooks call *)

Inductive Event : Type :=
  | PathExists (path : string)
  | CallCommand (name : string) (args : list string) (verbosity : Z)
  | GetModel (app_label model_name : string)
  | DeleteAll (m : Model).

Record World : Type := mkWorld {
  store : Store;
  trace : list Event
}.

Definition log (ev : Event) (w : World) : World :=
  {| store := store w; trace := trace w ++ [ev] |}.

(** Django's side: [call_command name *args verbosity=v] and
    [m.objects.all().delete()].  Both act on the store and either return or
    raise; nothing is assumed about them here. *)
Record Django : Type := mkDjango {
  call_command : string → list string → Z → Store → Outcome unit * Store;
  queryset_delete : Model → Store → Outcome unit * Store
}.

(** The [apps] argument of a RunPython hook: the historical model registry.
    [get_model] returns the model class or raises (LookupError when the app
    or the model is not installed). *)
Record Apps : Type := mkApps {
  get_model : string → string → Outcome Model
}.

(** ** Statements: state passing with exceptions *)

Definition Py (A : Type) : Type := World → Outcome A * World.

#[global] Instance Py_ret : MRet Py := λ A a w, (Returns a, w).

#[global] Instance Py_bind : MBind Py := λ A B k c w,
  match c w with
  | (Returns a, w') => k a w'
  | (Raises e, w') => (Raises e, w')
  end.

(** [try: body except Exception: handler].  An exception that is not an
    instance of [Exception] is not caught. *)
Definition try_except_Exception (body handler : Py unit) : Py unit :=
  λ w, match body w with
       | (Returns a, w') => (Returns a, w')
       | (Raises e, w') =>
           if isinstance_Exception e then handler w' else (Raises e, w')
       end.

(** [pass] *)
Definition pass : Py unit := mret tt.

(** [os.path.exists(path)]: a total test on the filesystem. *)
Definition os_path_exists (path : string) : Py bool :=
  λ w, (Returns (bool_decide (is_Some (files (store w) !! path))),
        log (PathExists path) w).

Section Hooks.
Context (dj : Django).

(** [call_command(name, *args, verbosity=v)] *)
Definition py_call_command (name : string) (args : list string)
    (verbosity : Z) : Py unit :=
  λ w, let '(r, s') := call_command dj name args verbosity (store w) in
       (r, {| store := s';
              trace := trace w ++ [CallCommand name args verbosity] |}).

(** [apps.get_model(app_label, model_name)] *)
Definition apps_get_model (apps : Apps) (app_label model_name : string)
    : Py Model :=
  λ w, (get_model apps app_label model_name,
        log (GetModel app_label model_name) w).

(** [m.objects.all().delete()] *)
Definition objects_all_delete (m : Model) : Py unit :=
  λ w, let '(r, s') := queryset_delete dj m (store w) in
       (r, {| store := s'; trace := trace w ++ [DeleteAll m] |}).

Definition fixture_file : string :=
  "/app/migration/fixtures/safe_full_data.json".

(** [def load_initial_safe_data(apps, schema_editor)] *)
Definition load_initial_safe_data {SchemaEditor : Type}
    (apps : Apps) (schema_editor : SchemaEditor) : Py unit :=
  found ← os_path_exists fixture_file;
  if negb found then mret tt
  else
    try_except_Exception
      (py_call_command "loaddata" [fixture_file] 0)
      pass.

(** [def reverse_initial_safe_data(apps, schema_editor)] *)
Definition reverse_initial_safe_data {SchemaEditor : Type}
    (apps : Apps) (schema_editor : SchemaEditor) : Py unit :=
  SafeContract ← apps_get_model apps "history" "SafeContract";
  SafeMasterCopy ← apps_get_model apps "history" "SafeMasterCopy";
  ProxyFactory ← apps_get_model apps "history" "ProxyFactory";
  Contract ← apps_get_model apps "contracts" "Contract";
  ContractAbi ← apps_get_model apps "contracts" "ContractAbi";
  Chain ← apps_get_model apps "history" "Chain";
  try_except_Exception
    (objects_all_delete SafeContract;;
     objects_all_delete Contract;;
     objects_all_delete ContractAbi;;
     objects_all_delete SafeMasterCopy;;
     objects_all_delete ProxyFactory;;
     objects_all_delete Chain)
    pass.

End Hooks.

(** ** The two sequences of [reverse_initial_safe_data] *)

(** The six [apps.get_model] calls, in the order of the source. *)
Definition lookup_order : list Model :=
  [("history", "SafeContract"); ("history", "SafeMasterCopy");
   ("history", "ProxyFactory"); ("contracts", "Contract");
   ("contracts", "ContractAbi"); ("history", "Chain")].

(** The six [.objects.all().delete()] calls, in the order of the source. *)
Definition delete_order : list Model :=
  [("history", "SafeContract"); ("contracts", "Contract");
   ("contracts", "ContractAbi"); ("history", "SafeMasterCopy");
   ("history", "ProxyFactory"); ("history", "Chain")].

Definition lookup_events (names : list Model) : list Event :=
  (λ mn, GetModel mn.1 mn.2) <$> names.

(** The registry knows a name when [get_model] returns the model of that
    name. *)
Definition resolves (apps : Apps) : Prop :=
  ∀ a n, (a, n) ∈ lookup_order → get_model apps a n = Returns (a, n).

(** The model a lookup hands to the rest of the hook (the name itself
    stands in where the lookup raises and nothing is handed on). *)
Definition model_of (apps : Apps) (mn : Model) : Model :=
  match get_model apps mn.1 mn.2 with
  | Returns m => m
  | Raises _ => mn
  end.

Definition lookups_return (apps : Apps) : Prop :=
  ∀ a n, (a, n) ∈ lookup_order →
         returns_normally (get_model apps a n) = true.

Section Sequences.
Context (dj : Django).

(** A block of delete statements, one per model of the list. *)
Fixpoint delete_block (ms : list Model) : Py unit :=
  match ms with
  | [] => mret tt
  | m :: ms' => objects_all_delete dj m;; delete_block ms'
  end.

(** The same block on the store alone: the outcome and the store it
    leaves. *)
Fixpoint delete_in_order (ms : list Model) (s : Store)
    : Outcome unit * Store :=
  match ms with
  | [] => (Returns tt, s)
  | m :: ms' =>
      match queryset_delete dj m s with
      | (Returns _, s') => delete_in_order ms' s'
      | (Raises e, s') => (Raises e, s')
      end
  end.

(** How many delete statements of the block are executed. *)
Fixpoint deletes_run (ms : list Model) (s : Store) : nat :=
  match ms with
  | [] => O
  | m :: ms' =>
      match queryset_delete dj m s with
      | (Returns _, s') => S (deletes_run ms' s')
      | (Raises _, _) => 1%nat
      end
  end.

End Sequences.

(** ** What is asked of the ORM where a claim speaks of its effect *)

(** A delete that returns leaves its own table without rows. *)
Definition empties_on_success (dj : Django) : Prop :=
  ∀ m s s', queryset_delete dj m s = (Returns tt, s') → rows s' m = [].

(** A delete, returning or raising, inserts nothing: each table afterwards
    holds a sublist of what it held (cascades may remove more). *)
Definition only_removes (dj : Django) : Prop :=
  ∀ m s m', rows (queryset_delete dj m s).2 m' `sublist_of` rows s m'.

(** A delete on a table without rows leaves the store alone. *)
Definition noop_on_empty (dj : Django) : Prop :=
  ∀ m s, rows s m = [] → (queryset_delete dj m s).2 = s.

(** Exceptions that leave the two primitives derive from [Exception]. *)
Definition delete_raises_only_Exception (dj : Django) : Prop :=
  ∀ m s e s', queryset_delete dj m s = (Raises e, s') →
              isinstance_Exception e = true.

Definition command_raises_only_Exception (dj : Django) : Prop :=
  ∀ name args v s e s', call_command dj name args v s = (Raises e, s') →
                        isinstance_Exception e = true.

(** ** Fixture records *)

(** Modelled from the spec: the bulk-loader primitive (Django's [loaddata],
    which is not part of the repository) "parses a fixture file and inserts
    its records into the appropriate collections".  Saving one record: the
    row joins the table of its model. *)
Definition save_record (r : Model * Row) (s : Store) : Store :=
  {| files := files s;
     tables := <[r.1 := rows s r.1 ++ [r.2]]> (tables s) |}.

Definition save_records (recs : list (Model * Row)) (s : Store) : Store :=
  foldl (λ acc r, save_record r acc) s recs.

(** Rows held by the six collections together. *)
Definition count_rows (s : Store) : nat :=
  sum_list_with (λ m, length (rows s m)) delete_order.

(** The rows a list of records holds for one model. *)
Definition records_of (m : Model) (recs : list (Model * Row)) : list Row :=
  snd <$> filter (λ r, r.1 = m) recs.

Definition is_CallCommand (ev : Event) : bool :=
  match ev with CallCommand _ _ _ => true | _ => false end.

(** What [except Exception: pass] makes of the outcome of its body. *)
Definition swallow (o : Outcome unit) : Outcome unit :=
  match o with
  | Returns _ => Returns tt
  | Raises e => if isinstance_Exception e then Returns tt else Raises e
  end.

(** ** Concrete registries, loaders and deletes

    Instances of [Apps] and [Django] on which the statements below are
    evaluated. *)

(** A registry that has the six models installed and nothing else. *)
Definition installed_apps : Apps :=
  {| get_model := λ a n,
       if bool_decide ((a, n) ∈ lookup_order) then Returns (a, n)
       else Raises (ExceptionInstance "LookupError") |}.

(** The same registry with one model missing. *)
Definition apps_without (missing : Model) : Apps :=
  {| get_model := λ a n,
       if bool_decide ((a, n) = missing)
       then Raises (ExceptionInstance "LookupError")
       else get_model installed_apps a n |}.

(** A registry that answers every lookup with the same model class. *)
Definition aliasing_apps : Apps :=
  {| get_model := λ _ _, Returns ("history", "Chain") |}.

(** A delete that raises what [fails] says for its model, leaving the store
    as it is, and otherwise removes every row of the table. *)
Definition table_delete (fails : Model → option PyExc) (m : Model)
    (s : Store) : Outcome unit * Store :=
  match fails m with
  | Some e => (Raises e, s)
  | None => (Returns tt,
             {| files := files s; tables := alter (λ _, []) m (tables s) |})
  end.

Definition pk_taken (s : Store) (r : Model * Row) : bool :=
  existsb (λ r', pk r' =? pk r.2) (rows s r.1).

(** A loader over fixtures already parsed: [parse] gives the records of a
    file content.  A record whose primary key is taken is refused with an
    IntegrityError; [interrupt] makes the loader raise before it reads. *)
Definition fixture_loader (parse : string → option (list (Model * Row)))
    (interrupt : option PyExc) (name : string) (args : list string)
    (verbosity : Z) (s : Store) : Outcome unit * Store :=
  match interrupt, args with
  | Some e, _ => (Raises e, s)
  | None, [path] =>
      match files s !! path ≫= parse with
      | Some recs =>
          if existsb (pk_taken s) recs
          then (Raises (ExceptionInstance "IntegrityError"), s)
          else (Returns tt, save_records recs s)
      | None => (Raises (ExceptionInstance "DeserializationError"), s)
      end
  | None, _ => (Raises (ExceptionInstance "CommandError"), s)
  end.

Definition chain_1 : Row := {| pk := 1; fields := "mainnet" |}.
Definition chain_5 : Row := {| pk := 5; fields := "goerli" |}.
Definition master_copy_1 : Row := {| pk := 1; fields := "v1.3.0" |}.
Definition safe_1 : Row := {| pk := 1; fields := "0x5afe" |}.

Definition seed_records : list (Model * Row) :=
  [(("history", "Chain"), chain_1);
   (("history", "Chain"), chain_5);
   (("history", "SafeMasterCopy"), master_copy_1)].

Definition seed_parse (content : string) : option (list (Model * Row)) :=
  if bool_decide (content = "seed") then Some seed_records else None.

Definition no_failure : Model → option PyExc := λ _, None.

Definition fails_on (m : Model) (e : PyExc) : Model → option PyExc :=
  λ m', if bool_decide (m' = m) then Some e else None.

Definition seed_django (interrupt : option PyExc)
    (fails : Model → option PyExc) : Django :=
  {| call_command := fixture_loader seed_parse interrupt;
     queryset_delete := table_delete fails |}.

Definition no_fixture : Store := {| files := ∅; tables := ∅ |}.

Definition with_fixture : Store :=
  {| files := {[ fixture_file := "seed" ]}; tables := ∅ |}.

(** A database with rows in three of the six tables. *)
Definition populated : Store :=
  {| files := ∅;
     tables := {[ ("history", "Chain") := [chain_1; chain_5];
                  ("history", "SafeMasterCopy") := [master_copy_1];
                  ("history", "SafeContract") := [safe_1] ]} |}.

Definition abi_integrity_error : Model → option PyExc :=
  fails_on ("contracts", "ContractAbi") (ExceptionInstance "IntegrityError").

(** [populated] once the rows of SafeContract are gone. *)
Definition populated_less_safes : Store :=
  {| files := ∅;
     tables := {[ ("history", "Chain") := [chain_1; chain_5];
                  ("history", "SafeMasterCopy") := [master_copy_1];
                  ("history", "SafeContract") := ([] : list Row) ]} |}.

(** The fixture on disk and a database that already holds one safe. *)
Definition with_fixture_and_safe : Store :=
  {| files := {[ fixture_file := "seed" ]};
     tables := {[ ("history", "SafeContract") := [safe_1] ]} |}.

(** The store after one load of the seed fixture: loading it again hits
    primary keys that are taken. *)
Definition seeded_once : Store := save_records seed_records with_fixture.

Definition at_start (s : Store) : World := {| store := s; trace := [] |}.

(** ** Running the blocks *)

Lemma try_pass_run (body : Py unit) (w : World) :
  try_except_Exception body pass w = (swallow (body w).1, (body w).2).
Proof.
  unfold try_except_Exception, pass, swallow.
  destruct (body w) as [[[]|e] w']; simpl; [done|].
  by destruct (isinstance_Exception e).
Qed.

Section BlockLemmas.
Context (dj : Django).

Lemma delete_block_run (ms : list Model) (w : World) :
  delete_block dj ms w =
    ((delete_in_order dj ms (store w)).1,
     {| store := (delete_in_order dj ms (store w)).2;
        trace := trace w ++
                 (DeleteAll <$> take (deletes_run dj ms (store w)) ms) |}).
Proof.
  revert w. induction ms as [|m ms IH]; intros [s t]; simpl.
  - unfold mret, Py_ret. by rewrite app_nil_r.
  - unfold mbind, Py_bind, objects_all_delete; simpl.
    destruct (queryset_delete dj m s) as [[[]|e] s1]; simpl.
    + rewrite IH; simpl. by rewrite <- app_assoc.
    + done.
Qed.

Lemma deletes_run_le (ms : list Model) (s : Store) :
  (deletes_run dj ms s ≤ length ms)%nat.
Proof.
  revert s. induction ms as [|m ms IH]; intros s; simpl; [lia|].
  destruct (queryset_delete dj m s) as [[[]|e] s1]; [|lia].
  specialize (IH s1). lia.
Qed.

(** When the whole block returns, every statement of it ran. *)
Lemma deletes_run_all (ms : list Model) (s s' : Store) :
  delete_in_order dj ms s = (Returns tt, s') →
  deletes_run dj ms s = length ms.
Proof.
  revert s. induction ms as [|m ms IH]; intros s; simpl; [done|].
  destruct (queryset_delete dj m s) as [[[]|e] s1]; [|done].
  intros H. by rewrite (IH _ H).
Qed.

(** A block that goes wrong at position [k]: the statements before it
    return, the one at [k] raises. *)
Lemma delete_in_order_raise_at (ms : list Model) (k : nat) (m : Model)
    (s sk s' : Store) (e : PyExc) :
  ms !! k = Some m →
  delete_in_order dj (take k ms) s = (Returns tt, sk) →
  queryset_delete dj m sk = (Raises e, s') →
  delete_in_order dj ms s = (Raises e, s') ∧
  deletes_run dj ms s = S k.
Proof.
  revert k s. induction ms as [|m0 ms IH]; intros k s Hk Hpre Hat; [done|].
  destruct k as [|k]; simpl in *.
  - injection Hk as ->. injection Hpre as ->. by rewrite Hat.
  - destruct (queryset_delete dj m0 s) as [[[]|e0] s1]; [|done].
    destruct (IH k s1 Hk Hpre Hat) as [-> ->]. done.
Qed.

(** Tables without rows stay so through a block of deletes that only
    remove. *)
Lemma delete_in_order_keeps_empty (ms : list Model) (s : Store)
    (m : Model) :
  only_removes dj → rows s m = [] →
  rows (delete_in_order dj ms s).2 m = [].
Proof.
  intros Hrm. revert s. induction ms as [|m0 ms IH]; intros s Hs; [done|].
  simpl. pose proof (Hrm m0 s m) as Hsub.
  destruct (queryset_delete dj m0 s) as [[[]|e0] s1]; simpl in *.
  - apply IH. rewrite Hs in Hsub. by apply sublist_nil_r.
  - rewrite Hs in Hsub. by apply sublist_nil_r.
Qed.

(** After a block that returns, every table it names is without rows. *)
Lemma delete_in_order_empties (ms : list Model) (s s' : Store) :
  empties_on_success dj → only_removes dj →
  delete_in_order dj ms s = (Returns tt, s') →
  ∀ m, m ∈ ms → rows s' m = [].
Proof.
  intros Hemp Hrm. revert s.
  induction ms as [|m0 ms IH]; intros s Hrun m Hin.
  - by apply elem_of_nil in Hin.
  - simpl in Hrun.
    destruct (queryset_delete dj m0 s) as [[[]|e0] s1] eqn:Hd; [|done].
    destruct (decide (m ∈ ms)) as [Hm|Hm]; [by eapply IH|].
    apply elem_of_cons in Hin as [->|?]; [|done].
    pose proof (delete_in_order_keeps_empty ms s1 m0 Hrm
                  (Hemp _ _ _ Hd)) as Hk.
    by rewrite Hrun in Hk.
Qed.

(** On a store where the tables of the block are without rows, the block
    changes nothing, whatever its deletes answer. *)
Lemma delete_in_order_noop (ms : list Model) (s : Store) :
  noop_on_empty dj → (∀ m, m ∈ ms → rows s m = []) →
  (delete_in_order dj ms s).2 = s.
Proof.
  intros Hno. induction ms as [|m0 ms IH]; intros Hs; [done|].
  simpl. pose proof (Hno m0 s (Hs m0 (list_elem_of_here _ _))) as H0.
  destruct (queryset_delete dj m0 s) as [[[]|e0] s1]; simpl in *; subst s1.
  - apply IH. intros m Hm. apply Hs. by apply list_elem_of_further.
  - done.
Qed.

End BlockLemmas.

(** ** Closed forms of the two hooks *)

Lemma model_of_returns (apps : Apps) (a n : string) :
  returns_normally (get_model apps a n) = true →
  get_model apps a n = Returns (model_of apps (a, n)).
Proof. unfold model_of; simpl. by destruct (get_model apps a n). Qed.

Lemma resolves_lookups_return (apps : Apps) :
  resolves apps → lookups_return apps.
Proof. intros H a n Hin. by rewrite (H a n Hin). Qed.

Lemma resolves_model_of (apps : Apps) :
  resolves apps → model_of apps <$> delete_order = delete_order.
Proof.
  intros H. unfold delete_order, model_of; simpl.
  rewrite !H by (unfold lookup_order; set_solver). done.
Qed.

Section HookLemmas.
Context (dj : Django) {SchemaEditor : Type}.
Implicit Types (apps : Apps) (se : SchemaEditor) (w : World).

(** The six statements of the [try] body are the block over the six
    models. *)
Lemma source_block_run (m1 m2 m3 m4 m5 m6 : Model) w :
  (objects_all_delete dj m1;; objects_all_delete dj m2;;
   objects_all_delete dj m3;; objects_all_delete dj m4;;
   objects_all_delete dj m5;; objects_all_delete dj m6) w =
  delete_block dj [m1; m2; m3; m4; m5; m6] w.
Proof.
  unfold delete_block, mbind, Py_bind, mret, Py_ret.
  repeat (match goal with
          | |- context [objects_all_delete dj ?m ?w0] =>
              destruct (objects_all_delete dj m w0) as [[[]|?] ?]
          end; try done).
Qed.

Lemma reverse_after_lookups apps se w :
  lookups_return apps →
  reverse_initial_safe_data dj apps se w =
    try_except_Exception
      (delete_block dj (model_of apps <$> delete_order)) pass
      {| store := store w;
         trace := trace w ++ lookup_events lookup_order |}.
Proof.
  intros H.
  unfold reverse_initial_safe_data, apps_get_model.
  unfold mbind at 1 2 3 4 5 6. unfold Py_bind at 1 2 3 4 5 6.
  rewrite !model_of_returns by (apply H; unfold lookup_order; set_solver).
  unfold log; simpl. rewrite <- !app_assoc; simpl.
  unfold try_except_Exception. by rewrite source_block_run.
Qed.

Lemma reverse_run apps se w :
  lookups_return apps →
  let ms := model_of apps <$> delete_order in
  reverse_initial_safe_data dj apps se w =
    (swallow (delete_in_order dj ms (store w)).1,
     {| store := (delete_in_order dj ms (store w)).2;
        trace := trace w ++ lookup_events lookup_order ++
                 (DeleteAll <$> take (deletes_run dj ms (store w)) ms) |}).
Proof.
  intros H ms. rewrite reverse_after_lookups by done.
  rewrite try_pass_run, delete_block_run; simpl.
  by rewrite <- app_assoc.
Qed.

Lemma load_absent apps se w :
  files (store w) !! fixture_file = None →
  load_initial_safe_data dj apps se w =
    (Returns tt, log (PathExists fixture_file) w).
Proof.
  intros H. unfold load_initial_safe_data, mbind, Py_bind, os_path_exists.
  rewrite bool_decide_eq_false_2; [done|].
  rewrite H. by intros [? ?].
Qed.

Lemma load_present apps se w :
  is_Some (files (store w) !! fixture_file) →
  let r := call_command dj "loaddata" [fixture_file] 0 (store w) in
  load_initial_safe_data dj apps se w =
    (swallow r.1,
     {| store := r.2;
        trace := trace w ++ [PathExists fixture_file;
                             CallCommand "loaddata" [fixture_file] 0] |}).
Proof.
  intros H r. unfold load_initial_safe_data, mbind, Py_bind, os_path_exists.
  rewrite bool_decide_eq_true_2 by done. simpl.
  rewrite try_pass_run. unfold py_call_command, log; simpl.
  fold r. destruct r as [o s']; simpl. by rewrite <- app_assoc.
Qed.

End HookLemmas.

(** ** Records saved by a loader *)

Lemma rows_save_record (r : Model * Row) (s : Store) (m : Model) :
  rows (save_record r s) m =
    if decide (r.1 = m) then rows s m ++ [r.2] else rows s m.
Proof.
  unfold rows, save_record; simpl. destruct (decide (r.1 = m)) as [<-|Hne].
  - by rewrite lookup_total_insert_eq.
  - by rewrite lookup_total_insert_ne.
Qed.

Lemma rows_save_records (recs : list (Model * Row)) (s : Store) (m : Model) :
  rows (save_records recs s) m = rows s m ++ records_of m recs.
Proof.
  unfold save_records, records_of. revert s.
  induction recs as [|r recs IH]; intros s; simpl.
  - by rewrite app_nil_r.
  - rewrite IH, rows_save_record, filter_cons.
    destruct (decide (r.1 = m)); simpl; [|done].
    by rewrite <- app_assoc.
Qed.

Lemma delete_order_NoDup : NoDup delete_order.
Proof. apply (bool_decide_unpack _). by vm_compute. Qed.

Lemma sum_rows_save_record (r : Model * Row) (s : Store) (ms : list Model) :
  NoDup ms → r.1 ∈ ms →
  sum_list_with (λ m, length (rows (save_record r s) m)) ms =
    S (sum_list_with (λ m, length (rows s m)) ms).
Proof.
  induction ms as [|m ms IH]; intros Hnd Hin; [by apply elem_of_nil in Hin|].
  apply NoDup_cons in Hnd as [Hm Hnd]. simpl.
  rewrite rows_save_record. destruct (decide (r.1 = m)) as [Heq|Hne].
  - rewrite length_app; simpl.
    assert (sum_list_with (λ m, length (rows (save_record r s) m)) ms =
            sum_list_with (λ m, length (rows s m)) ms) as ->; [|lia].
    clear IH Hnd Hin. subst m. induction ms as [|m' ms IH]; [done|].
    simpl. rewrite rows_save_record.
    apply not_elem_of_cons in Hm as [Hne Hm].
    destruct (decide (r.1 = m')) as [?|_]; [done|].
    by rewrite IH.
  - apply elem_of_cons in Hin as [?|Hin]; [done|].
    rewrite IH by done. lia.
Qed.

Lemma count_rows_save_record (r : Model * Row) (s : Store) :
  r.1 ∈ delete_order → count_rows (save_record r s) = S (count_rows s).
Proof. apply sum_rows_save_record, delete_order_NoDup. Qed.

Lemma count_rows_save_records (recs : list (Model * Row)) (s : Store) :
  Forall (λ r, r.1 ∈ delete_order) recs →
  count_rows (save_records recs s) = (count_rows s + length recs)%nat.
Proof.
  unfold save_records. intros H. revert s.
  induction H as [|r recs Hr _ IH]; intros s; [simpl; lia|].
  cbn [foldl length]. rewrite IH, count_rows_save_record by done. lia.
Qed.

(** ** The concrete instances meet what is asked of them *)

Lemma installed_apps_resolves : resolves installed_apps.
Proof.
  intros a n Hin. unfold installed_apps; simpl.
  by rewrite bool_decide_eq_true_2.
Qed.

Lemma table_delete_empties (interrupt : option PyExc)
    (fails : Model → option PyExc) :
  empties_on_success (seed_django interrupt fails).
Proof.
  intros m s s'. unfold seed_django, table_delete; simpl.
  destruct (fails m); [done|]. intros [= <-].
  unfold rows; simpl.
  rewrite lookup_total_alter_eq. by destruct (tables s !! m).
Qed.

Lemma table_delete_only_removes (interrupt : option PyExc)
    (fails : Model → option PyExc) :
  only_removes (seed_django interrupt fails).
Proof.
  intros m s m'. unfold seed_django, table_delete; simpl.
  destruct (fails m); simpl; [reflexivity|].
  unfold rows; simpl. rewrite lookup_total_alter.
  destruct (decide (m = m')); [|reflexivity].
  destruct (tables s !! m); apply sublist_nil_l.
Qed.

Lemma table_delete_noop_on_empty (interrupt : option PyExc)
    (fails : Model → option PyExc) :
  noop_on_empty (seed_django interrupt fails).
Proof.
  intros m [fs ts]. unfold seed_django, table_delete, rows; simpl.
  intros Hm. destruct (fails m); simpl; [done|]. f_equal.
  apply map_eq. intros m'. rewrite lookup_alter.
  destruct (decide (m = m')) as [<-|]; [|done].
  rewrite lookup_total_alt in Hm.
  destruct (ts !! m) as [l|]; simpl in *; by subst.
Qed.

Lemma table_delete_raises (interrupt : option PyExc)
    (fails : Model → option PyExc) :
  (∀ m e, fails m = Some e → isinstance_Exception e = true) →
  delete_raises_only_Exception (seed_django interrupt fails).
Proof.
  intros H m s e s'. unfold seed_django, table_delete; simpl.
  destruct (fails m) as [e0|] eqn:Hf; [|done].
  intros [= <- _]. by apply (H m).
Qed.

Lemma fixture_loader_raises (fails : Model → option PyExc) :
  command_raises_only_Exception (seed_django None fails).
Proof.
  intros name args v s e s'. unfold seed_django, fixture_loader; simpl.
  destruct args as [|path [|]]; [by intros [= <- _]| |by intros [= <- _]].
  destruct (files s !! path ≫= seed_parse) as [recs|];
    [|by intros [= <- _]].
  destruct (existsb (pk_taken s) recs); [by intros [= <- _]|done].
Qed.

Lemma delete_in_order_raises_from (dj : Django) (ms : list Model)
    (s s' : Store) (e : PyExc) :
  delete_in_order dj ms s = (Raises e, s') →
  ∃ m s0, m ∈ ms ∧ queryset_delete dj m s0 = (Raises e, s').
Proof.
  revert s. induction ms as [|m ms IH]; intros s; simpl; [done|].
  destruct (queryset_delete dj m s) as [[[]|e0] s1] eqn:Hd.
  - intros H. destruct (IH _ H) as (m' & s0 & Hin & Hq).
    exists m', s0. split; [by apply list_elem_of_further|done].
  - intros [= <- <-]. exists m, s. split; [apply list_elem_of_here|done].
Qed.

Section OutcomeLemmas.
Context (dj : Django) {SchemaEditor : Type}.
Implicit Types (apps : Apps) (se : SchemaEditor) (w : World).

Lemma load_returns apps se w :
  (∀ e s', call_command dj "loaddata" [fixture_file] 0 (store w) =
             (Raises e, s') →
           isinstance_Exception e = true) →
  (load_initial_safe_data dj apps se w).1 = Returns tt.
Proof.
  intros Hexc. destruct (files (store w) !! fixture_file) as [c|] eqn:Hf.
  - rewrite load_present by (by exists c). simpl.
    destruct (call_command dj "loaddata" [fixture_file] 0 (store w))
      as [[[]|e] s'] eqn:Hc; simpl; [done|].
    by rewrite (Hexc e s').
  - by rewrite load_absent.
Qed.

Lemma reverse_returns apps se w :
  lookups_return apps → delete_raises_only_Exception dj →
  (reverse_initial_safe_data dj apps se w).1 = Returns tt.
Proof.
  intros Hl He. rewrite reverse_run by done. cbv zeta. cbn [fst].
  destruct (delete_in_order dj (model_of apps <$> delete_order) (store w))
    as [[[]|e] s'] eqn:Hd; simpl; [done|].
  destruct (delete_in_order_raises_from _ _ _ _ _ Hd) as (m & s0 & _ & Hq).
  by rewrite (He _ _ _ _ Hq).
Qed.

Lemma reverse_run_resolved apps se w :
  resolves apps →
  reverse_initial_safe_data dj apps se w =
    (swallow (delete_in_order dj delete_order (store w)).1,
     {| store := (delete_in_order dj delete_order (store w)).2;
        trace := trace w ++ lookup_events lookup_order ++
                 (DeleteAll <$>
                    take (deletes_run dj delete_order (store w))
                      delete_order) |}).
Proof.
  intros Hr. rewrite reverse_run by by apply resolves_lookups_return.
  cbv zeta. by rewrite resolves_model_of.
Qed.

Lemma reverse_store apps se w :
  resolves apps →
  store (reverse_initial_safe_data dj apps se w).2 =
    (delete_in_order dj delete_order (store w)).2.
Proof.
  intros Hr. rewrite reverse_run by by apply resolves_lookups_return.
  cbv zeta. cbn [snd store]. by rewrite resolves_model_of.
Qed.

End OutcomeLemmas.

(** A registry that does not resolve all six names has a first lookup that
    raises. *)
Lemma first_failing_lookup (apps : Apps) (names : list Model) :
  ¬ (∀ mn, mn ∈ names →
           returns_normally (get_model apps mn.1 mn.2) = true) →
  ∃ i mn e,
    names !! i = Some mn ∧
    (∀ mn', mn' ∈ take i names →
            returns_normally (get_model apps mn'.1 mn'.2) = true) ∧
    get_model apps mn.1 mn.2 = Raises e.
Proof.
  induction names as [|x names IH]; intros Hnot.
  - destruct Hnot. intros mn Hin. by apply elem_of_nil in Hin.
  - destruct (get_model apps x.1 x.2) as [m|e] eqn:Hx.
    + destruct IH as (i & mn & e & Hi & Hbefore & Hraise).
      { intros Hall. apply Hnot. intros mn Hin.
        apply elem_of_cons in Hin as [->|Hin]; [by rewrite Hx|by apply Hall]. }
      exists (S i), mn, e. split; [done|]. split; [|done].
      intros mn' Hin. simpl in Hin.
      apply elem_of_cons in Hin as [->|Hin]; [by rewrite Hx|by apply Hbefore].
    + exists 0%nat, x, e. split; [done|]. split; [|done].
      intros mn' Hin. by apply elem_of_nil in Hin.
Qed.

(** ** The apply hook *)

(** C4.  Where the fixed fixture path does not exist, the apply hook returns
    at once: the only thing it does is the existence test, the loader is not
    called, no exception is raised, and the store (files and every table) is
    left as it was, so no row is inserted. *)
Theorem load_without_fixture_is_noop (dj : Django) {SchemaEditor : Type}
    (apps : Apps) (se : SchemaEditor) (w : World) :
  files (store w) !! fixture_file = None →
  load_initial_safe_data dj apps se w =
    (Returns tt,
     {| store := store w; trace := trace w ++ [PathExists fixture_file] |}).
Proof. intros H. by rewrite load_absent. Qed.

Lemma load_without_fixture_is_noop_witness :
  files (store (at_start no_fixture)) !! fixture_file = None ∧
  load_initial_safe_data (seed_django None no_failure) installed_apps tt
    (at_start no_fixture) =
    (Returns tt,
     {| store := no_fixture; trace := [PathExists fixture_file] |}).
Proof.
  split; [reflexivity|].
  apply (load_without_fixture_is_noop (seed_django None no_failure)
           installed_apps tt (at_start no_fixture)).
  reflexivity.
Defined.

(** C5.  Where the fixed fixture path exists, the apply hook calls the
    loader exactly once, as [call_command('loaddata', fixture_file,
    verbosity=0)]: after the existence test that call is the only event it
    adds to the trace, and the store it leaves is the one the loader left. *)
Theorem load_with_fixture_calls_loaddata_once (dj : Django)
    {SchemaEditor : Type} (apps : Apps) (se : SchemaEditor) (w : World) :
  is_Some (files (store w) !! fixture_file) →
  let w' := (load_initial_safe_data dj apps se w).2 in
  trace w' =
    trace w ++ [PathExists fixture_file;
                CallCommand "loaddata" [fixture_file] 0] ∧
  List.filter is_CallCommand (drop (length (trace w)) (trace w')) =
    [CallCommand "loaddata"
       ["/app/migration/fixtures/safe_full_data.json"] 0] ∧
  store w' = (call_command dj "loaddata" [fixture_file] 0 (store w)).2.
Proof.
  intros H. rewrite load_present by done. simpl.
  split; [done|]. split; [|done].
  by rewrite drop_app_length.
Qed.

Lemma load_with_fixture_calls_loaddata_once_witness :
  is_Some (files (store (at_start with_fixture)) !! fixture_file) ∧
  trace (load_initial_safe_data (seed_django None no_failure)
           installed_apps tt (at_start with_fixture)).2 =
    [PathExists fixture_file; CallCommand "loaddata" [fixture_file] 0].
Proof.
  assert (is_Some (files (store (at_start with_fixture)) !! fixture_file))
    as Hfile by (exists "seed"; reflexivity).
  split; [exact Hfile|].
  exact (proj1 (load_with_fixture_calls_loaddata_once
                  (seed_django None no_failure) installed_apps tt
                  (at_start with_fixture) Hfile)).
Defined.

(** C2, as the code has it.  For every filesystem state, if the loader
    returns or raises an exception that derives from [Exception] (a parse
    error, a constraint violation, a partial load, an I/O error), the apply
    hook returns normally.  The handler is [except Exception], so an
    exception outside that hierarchy is not covered by this statement. *)
Theorem load_swallows_Exception (dj : Django) {SchemaEditor : Type}
    (apps : Apps) (se : SchemaEditor) (w : World) :
  (∀ e s', call_command dj "loaddata" [fixture_file] 0 (store w) =
             (Raises e, s') →
           isinstance_Exception e = true) →
  (load_initial_safe_data dj apps se w).1 = Returns tt.
Proof. apply load_returns. Qed.

Lemma load_swallows_Exception_witness :
  (load_initial_safe_data (seed_django None no_failure) installed_apps tt
     (at_start seeded_once)).1 = Returns tt ∧
  (call_command (seed_django None no_failure) "loaddata" [fixture_file] 0
     seeded_once).1 = Raises (ExceptionInstance "IntegrityError").
Proof.
  split; [|by vm_compute].
  apply (load_swallows_Exception (seed_django None no_failure)
           installed_apps tt (at_start seeded_once)).
  intros e s' H. vm_compute in H. injection H as <- _. reflexivity.
Defined.

(** C2, as stated, fails: the fixture exists and the loader is interrupted
    (KeyboardInterrupt derives from BaseException, not from Exception); the
    apply hook does not return normally, the exception reaches its caller. *)
Lemma load_propagates_KeyboardInterrupt :
  (load_initial_safe_data
     (seed_django (Some (BaseExceptionOnly "KeyboardInterrupt")) no_failure)
     installed_apps tt (at_start with_fixture)).1 =
    Raises (BaseExceptionOnly "KeyboardInterrupt").
Proof. by vm_compute. Qed.

(** C8.  A well-formed fixture at the fixed path with N valid records
    across the six collections is one the loader accepts and saves record
    by record.  For every such fixture the apply hook returns normally and
    the store it leaves is the store with exactly those records saved: each
    table holds what it held followed by the records of its model, and the
    six collections together hold N rows more (N rows on an empty
    database). *)
Theorem load_saves_fixture_records (dj : Django) {SchemaEditor : Type}
    (apps : Apps) (se : SchemaEditor) (w : World)
    (recs : list (Model * Row)) :
  is_Some (files (store w) !! fixture_file) →
  Forall (λ r, r.1 ∈ delete_order) recs →
  call_command dj "loaddata" [fixture_file] 0 (store w) =
    (Returns tt, save_records recs (store w)) →
  ∃ w', load_initial_safe_data dj apps se w = (Returns tt, w') ∧
        store w' = save_records recs (store w) ∧
        (∀ m, rows (store w') m = rows (store w) m ++ records_of m recs) ∧
        count_rows (store w') = (count_rows (store w) + length recs)%nat.
Proof.
  intros Hfile Hsix Hload. eexists. split.
  - rewrite load_present by done. rewrite Hload. reflexivity.
  - simpl. split; [done|]. split.
    + intros m. apply rows_save_records.
    + by apply count_rows_save_records.
Qed.

Lemma load_saves_fixture_records_witness :
  ∃ w', load_initial_safe_data (seed_django None no_failure) installed_apps
          tt (at_start with_fixture) = (Returns tt, w') ∧
        store w' = save_records seed_records with_fixture ∧
        (∀ m, rows (store w') m =
              rows with_fixture m ++ records_of m seed_records) ∧
        count_rows (store w') = (count_rows with_fixture + 3)%nat.
Proof.
  apply (load_saves_fixture_records (seed_django None no_failure)
           installed_apps tt (at_start with_fixture) seed_records).
  - exists "seed". reflexivity.
  - unfold seed_records, delete_order.
    repeat (apply Forall_cons; split; [simpl; set_solver|]).
    apply Forall_nil_2.
  - reflexivity.
Defined.

(** C10.  The apply hook reads neither of its arguments: with the same
    store and the same loader, any two contexts give the same outcome, the
    same store and the same trace.  The reverse hook never reads
    [schema_editor]: with the same registry, any two schema editors give
    the same result. *)
Theorem hooks_ignore_context (dj : Django) {SE1 SE2 : Type}
    (apps1 apps2 : Apps) (se1 : SE1) (se2 : SE2) (w : World) :
  load_initial_safe_data dj apps1 se1 w =
    load_initial_safe_data dj apps2 se2 w ∧
  reverse_initial_safe_data dj apps1 se1 w =
    reverse_initial_safe_data dj apps1 se2 w.
Proof. split; reflexivity. Qed.

(** ** The reverse hook *)

(** C9.  The six [apps.get_model] calls come before the [try] block.  When
    the lookups before position [i] return and the lookup at position [i]
    raises, the reverse hook raises that same exception to its caller, also
    when it derives from [Exception]: the trace ends with that lookup, no
    delete is issued and the store is untouched. *)
Theorem reverse_propagates_lookup_failure (dj : Django)
    {SchemaEditor : Type} (apps : Apps) (se : SchemaEditor) (w : World)
    (i : nat) (mn : Model) (e : PyExc) :
  lookup_order !! i = Some mn →
  (∀ mn', mn' ∈ take i lookup_order →
          returns_normally (get_model apps mn'.1 mn'.2) = true) →
  get_model apps mn.1 mn.2 = Raises e →
  reverse_initial_safe_data dj apps se w =
    (Raises e,
     {| store := store w;
        trace := trace w ++ lookup_events (take (S i) lookup_order) |}).
Proof.
  intros Hi Hbefore Hraise.
  do 6 (try destruct i as [|i]); try done;
    simpl in Hi; injection Hi as <-; simpl in Hraise;
    unfold reverse_initial_safe_data, apps_get_model, mbind, Py_bind;
    repeat match goal with
      | |- context [get_model apps ?a ?n] =>
          first [ rewrite Hraise
                | rewrite (model_of_returns apps a n)
                    by (apply (Hbefore (a, n));
                        apply (bool_decide_unpack _); by vm_compute) ]
      end;
    unfold log; simpl; rewrite <- ?app_assoc; done.
Qed.

Lemma reverse_propagates_lookup_failure_witness :
  reverse_initial_safe_data (seed_django None no_failure)
    (apps_without ("history", "ProxyFactory")) tt (at_start populated) =
    (Raises (ExceptionInstance "LookupError"),
     {| store := populated;
        trace := [GetModel "history" "SafeContract";
                  GetModel "history" "SafeMasterCopy";
                  GetModel "history" "ProxyFactory"] |}).
Proof.
  apply (reverse_propagates_lookup_failure (seed_django None no_failure)
           (apps_without ("history", "ProxyFactory")) tt (at_start populated)
           2 ("history", "ProxyFactory") (ExceptionInstance "LookupError")).
  - reflexivity.
  - intros mn' Hin. simpl in Hin.
    apply elem_of_cons in Hin as [->|Hin]; [reflexivity|].
    apply elem_of_cons in Hin as [->|Hin]; [reflexivity|].
    by apply elem_of_nil in Hin.
  - reflexivity.
Defined.

(** C1, as the code has it.  Provided the six models resolve and every
    exception a delete raises derives from [Exception], the reverse hook
    returns normally for every store and every behaviour of the deletes. *)
Theorem reverse_swallows_Exception (dj : Django) {SchemaEditor : Type}
    (apps : Apps) (se : SchemaEditor) (w : World) :
  lookups_return apps → delete_raises_only_Exception dj →
  (reverse_initial_safe_data dj apps se w).1 = Returns tt.
Proof. apply reverse_returns. Qed.

Lemma fails_on_Exception (m0 : Model) (cls : string) (m : Model)
    (e : PyExc) :
  fails_on m0 (ExceptionInstance cls) m = Some e →
  isinstance_Exception e = true.
Proof. unfold fails_on. case_bool_decide; [by intros [= <-]|done]. Qed.

Lemma reverse_swallows_Exception_witness :
  (reverse_initial_safe_data
     (seed_django None
        (fails_on ("contracts", "ContractAbi")
           (ExceptionInstance "IntegrityError")))
     installed_apps tt (at_start populated)).1 = Returns tt.
Proof.
  apply (reverse_swallows_Exception
           (seed_django None
              (fails_on ("contracts", "ContractAbi")
                 (ExceptionInstance "IntegrityError")))
           installed_apps tt (at_start populated)).
  - exact (resolves_lookups_return _ installed_apps_resolves).
  - apply table_delete_raises. intros m e. apply fails_on_Exception.
Defined.

(** C1, as stated, fails in two ways: with a registry that lacks one of the
    six models the LookupError of [get_model] leaves the hook, since the
    lookups are outside the [try]; and a delete that raises
    KeyboardInterrupt is not caught by [except Exception]. *)
Lemma reverse_can_raise :
  (reverse_initial_safe_data (seed_django None no_failure)
     (apps_without ("history", "Chain")) tt (at_start populated)).1 =
    Raises (ExceptionInstance "LookupError") ∧
  (reverse_initial_safe_data
     (seed_django None
        (fails_on ("contracts", "ContractAbi")
           (BaseExceptionOnly "KeyboardInterrupt")))
     installed_apps tt (at_start populated)).1 =
    Raises (BaseExceptionOnly "KeyboardInterrupt").
Proof. split; by vm_compute. Qed.

(** C3, as the code has it.  When the six models resolve and no delete
    raises, the reverse hook returns normally after issuing, behind the six
    lookups, exactly six deletes in the order SafeContract, Contract,
    ContractAbi, SafeMasterCopy, ProxyFactory, Chain; this part holds for
    every ORM.  With deletes that empty their table and insert nothing, all
    six collections are empty afterwards, whatever rows the store held
    before. *)
Theorem reverse_empties_six_collections (dj : Django)
    {SchemaEditor : Type} (apps : Apps) (se : SchemaEditor) (w : World)
    (s' : Store) :
  resolves apps →
  delete_in_order dj delete_order (store w) = (Returns tt, s') →
  reverse_initial_safe_data dj apps se w =
    (Returns tt,
     {| store := s';
        trace := trace w ++ lookup_events lookup_order ++
                 [DeleteAll ("history", "SafeContract");
                  DeleteAll ("contracts", "Contract");
                  DeleteAll ("contracts", "ContractAbi");
                  DeleteAll ("history", "SafeMasterCopy");
                  DeleteAll ("history", "ProxyFactory");
                  DeleteAll ("history", "Chain")] |}) ∧
  (empties_on_success dj → only_removes dj →
   ∀ m, m ∈ delete_order → rows s' m = []).
Proof.
  intros Hr Hrun. split.
  - rewrite reverse_run_resolved by done.
    rewrite (deletes_run_all _ _ _ _ Hrun), Hrun. reflexivity.
  - intros Hemp Hrm.
    by apply (delete_in_order_empties dj delete_order (store w)).
Qed.

Lemma reverse_empties_six_collections_witness :
  (reverse_initial_safe_data (seed_django None no_failure) installed_apps tt
     (at_start populated)).1 = Returns tt ∧
  rows populated ("history", "Chain") = [chain_1; chain_5] ∧
  (∀ m, m ∈ delete_order →
        rows (store (reverse_initial_safe_data (seed_django None no_failure)
                       installed_apps tt (at_start populated)).2) m = []).
Proof.
  pose proof (reverse_empties_six_collections (seed_django None no_failure)
                installed_apps tt (at_start populated)
                (delete_in_order (seed_django None no_failure) delete_order
                   populated).2
                installed_apps_resolves eq_refl) as [Hrun Hempty].
  split; [by rewrite Hrun|]. split; [reflexivity|].
  rewrite Hrun.
  exact (Hempty (table_delete_empties None no_failure)
           (table_delete_only_removes None no_failure)).
Defined.

(** C3, as stated, fails: its only condition is that no delete raises.
    With a registry that lacks the Contract model and deletes that never
    raise, the fourth lookup raises LookupError before the [try] block;
    the reverse hook raises it, issues no delete at all, and the
    collections keep their rows. *)
Lemma reverse_without_model_deletes_nothing :
  (∀ m s, returns_normally
            (queryset_delete (seed_django None no_failure) m s).1 = true) ∧
  reverse_initial_safe_data (seed_django None no_failure)
    (apps_without ("contracts", "Contract")) tt (at_start populated) =
    (Raises (ExceptionInstance "LookupError"),
     {| store := populated;
        trace := [GetModel "history" "SafeContract";
                  GetModel "history" "SafeMasterCopy";
                  GetModel "history" "ProxyFactory";
                  GetModel "contracts" "Contract"] |}) ∧
  rows populated ("history", "Chain") = [chain_1; chain_5] ∧
  rows populated ("history", "SafeContract") = [safe_1].
Proof.
  split; [done|]. repeat split; by vm_compute.
Qed.

(** C6, as the code has it.  For every position [k] of the delete
    sequence: if the deletes before [k] return and the delete at [k] raises
    an exception that derives from [Exception], the reverse hook returns
    normally; the deletes after [k] are not issued (the trace ends with the
    delete at [k]) and the store is left exactly as the failing delete left
    it, so later collections keep what that store holds; the deletes before
    [k] are not undone: with deletes that empty their table and insert
    nothing, the collections before [k] are empty. *)
Theorem reverse_stops_at_failing_delete (dj : Django)
    {SchemaEditor : Type} (apps : Apps) (se : SchemaEditor) (w : World)
    (k : nat) (m : Model) (e : PyExc) (sk s' : Store) :
  resolves apps →
  delete_order !! k = Some m →
  delete_in_order dj (take k delete_order) (store w) = (Returns tt, sk) →
  queryset_delete dj m sk = (Raises e, s') →
  isinstance_Exception e = true →
  reverse_initial_safe_data dj apps se w =
    (Returns tt,
     {| store := s';
        trace := trace w ++ lookup_events lookup_order ++
                 (DeleteAll <$> take (S k) delete_order) |}) ∧
  (empties_on_success dj → only_removes dj →
   ∀ m', m' ∈ take k delete_order → rows s' m' = []).
Proof.
  intros Hr Hk Hpre Hat He. split.
  - rewrite reverse_run_resolved by done.
    destruct (delete_in_order_raise_at dj _ _ _ _ _ _ _ Hk Hpre Hat)
      as [-> ->].
    simpl. by rewrite He.
  - intros Hemp Hrm m' Hin.
    pose proof (delete_in_order_empties dj _ _ _ Hemp Hrm Hpre m' Hin)
      as Hsk.
    pose proof (Hrm m sk m') as Hsub. rewrite Hat, Hsk in Hsub.
    by apply sublist_nil_r.
Qed.

Lemma reverse_stops_at_failing_delete_witness :
  reverse_initial_safe_data (seed_django None abi_integrity_error)
    installed_apps tt (at_start populated) =
    (Returns tt,
     {| store := populated_less_safes;
        trace := lookup_events lookup_order ++
                 [DeleteAll ("history", "SafeContract");
                  DeleteAll ("contracts", "Contract");
                  DeleteAll ("contracts", "ContractAbi")] |}) ∧
  (∀ m', m' ∈ take 2 delete_order → rows populated_less_safes m' = []) ∧
  rows populated_less_safes ("history", "Chain") = [chain_1; chain_5].
Proof.
  pose proof (reverse_stops_at_failing_delete
                (seed_django None abi_integrity_error) installed_apps tt
                (at_start populated) 2 ("contracts", "ContractAbi")
                (ExceptionInstance "IntegrityError")
                populated_less_safes populated_less_safes
                installed_apps_resolves eq_refl eq_refl eq_refl eq_refl)
    as [Hrun Hkept].
  split; [exact Hrun|]. split; [|reflexivity].
  exact (Hkept (table_delete_empties None abi_integrity_error)
           (table_delete_only_removes None abi_integrity_error)).
Defined.

(** C6, as stated, fails: the delete at position 0 (SafeContract) is
    interrupted; KeyboardInterrupt is not caught by [except Exception] and
    the reverse hook raises it. *)
Lemma reverse_raises_on_interrupted_delete :
  delete_order !! 0%nat = Some ("history", "SafeContract") ∧
  (queryset_delete
     (seed_django None
        (fails_on ("history", "SafeContract")
           (BaseExceptionOnly "KeyboardInterrupt")))
     ("history", "SafeContract") populated).1 =
    Raises (BaseExceptionOnly "KeyboardInterrupt") ∧
  (reverse_initial_safe_data
     (seed_django None
        (fails_on ("history", "SafeContract")
           (BaseExceptionOnly "KeyboardInterrupt")))
     installed_apps tt (at_start populated)).1 =
    Raises (BaseExceptionOnly "KeyboardInterrupt").
Proof. repeat split; by vm_compute. Qed.

(** C7, as the code has it.  With a loader whose exceptions derive from
    [Exception] (as duplicate-key errors do), calling the apply hook twice
    returns normally both times.  With the six models resolved and deletes
    whose exceptions derive from [Exception], calling the reverse hook
    twice returns normally both times; and where a delete on a table
    without rows leaves the store alone, the second reverse is a no-op on a
    store whose six collections are already empty, which is the case when
    no delete of the first reverse raised: the store after two reverses is
    the store after one. *)
Theorem hooks_twice (dj : Django) {SchemaEditor : Type}
    (apps : Apps) (se : SchemaEditor) (w : World) :
  command_raises_only_Exception dj →
  resolves apps →
  delete_raises_only_Exception dj →
  (∃ w1 w2,
     load_initial_safe_data dj apps se w = (Returns tt, w1) ∧
     load_initial_safe_data dj apps se w1 = (Returns tt, w2)) ∧
  (∃ w1 w2,
     reverse_initial_safe_data dj apps se w = (Returns tt, w1) ∧
     reverse_initial_safe_data dj apps se w1 = (Returns tt, w2) ∧
     (noop_on_empty dj →
      (∀ m, m ∈ delete_order → rows (store w1) m = []) →
      store w2 = store w1) ∧
     (noop_on_empty dj → empties_on_success dj → only_removes dj →
      (delete_in_order dj delete_order (store w)).1 = Returns tt →
      store w2 = store w1)).
Proof.
  intros Hcmd Hr Hdel.
  assert (∀ w0, (load_initial_safe_data dj apps se w0).1 = Returns tt)
    as Hload by (intros w0; apply load_returns; intros e s'; apply Hcmd).
  assert (∀ w0, (reverse_initial_safe_data dj apps se w0).1 = Returns tt)
    as Hrev by (intros w0; apply reverse_returns;
                [by apply resolves_lookups_return|done]).
  split.
  - exists (load_initial_safe_data dj apps se w).2,
      (load_initial_safe_data dj apps se
         (load_initial_safe_data dj apps se w).2).2.
    split; (etrans; [apply surjective_pairing|]); by rewrite Hload.
  - set (w1 := (reverse_initial_safe_data dj apps se w).2).
    assert (noop_on_empty dj →
            (∀ m, m ∈ delete_order → rows (store w1) m = []) →
            store (reverse_initial_safe_data dj apps se w1).2 = store w1)
      as Hnoop.
    { intros Hno Hempty. rewrite reverse_store by done.
      by apply delete_in_order_noop. }
    exists w1, (reverse_initial_safe_data dj apps se w1).2.
    split; [etrans; [apply surjective_pairing|]; by rewrite Hrev|].
    split; [etrans; [apply surjective_pairing|]; by rewrite Hrev|].
    split; [done|].
    intros Hno Hemp Hrm Hrun. apply Hnoop; [done|].
    unfold w1. rewrite reverse_store by done.
    apply (delete_in_order_empties dj delete_order (store w)); [done..|].
    destruct (delete_in_order dj delete_order (store w)) as [[[]|?] ?];
      by simplify_eq/=.
Qed.

Lemma no_failure_Exception (m : Model) (e : PyExc) :
  no_failure m = Some e → isinstance_Exception e = true.
Proof. done. Qed.

Lemma hooks_twice_witness :
  (∃ w1 w2,
     load_initial_safe_data (seed_django None no_failure) installed_apps tt
       (at_start with_fixture) = (Returns tt, w1) ∧
     load_initial_safe_data (seed_django None no_failure) installed_apps tt
       w1 = (Returns tt, w2)) ∧
  (∃ w1 w2,
     reverse_initial_safe_data (seed_django None no_failure) installed_apps
       tt (at_start populated) = (Returns tt, w1) ∧
     reverse_initial_safe_data (seed_django None no_failure) installed_apps
       tt w1 = (Returns tt, w2) ∧
     store w2 = store w1).
Proof.
  split.
  - exact (proj1 (hooks_twice (seed_django None no_failure) installed_apps
                    tt (at_start with_fixture)
                    (fixture_loader_raises no_failure)
                    installed_apps_resolves
                    (table_delete_raises None no_failure
                       no_failure_Exception))).
  - destruct (proj2 (hooks_twice (seed_django None no_failure)
                       installed_apps tt (at_start populated)
                       (fixture_loader_raises no_failure)
                       installed_apps_resolves
                       (table_delete_raises None no_failure
                          no_failure_Exception)))
      as (w1 & w2 & H1 & H2 & _ & Hsame).
    exists w1, w2. split; [exact H1|]. split; [exact H2|].
    apply Hsame.
    + apply table_delete_noop_on_empty.
    + apply table_delete_empties.
    + apply table_delete_only_removes.
    + reflexivity.
Defined.

(** C7, as stated, fails.  For the reverse hook: with a registry that
    lacks the SafeContract model the first of the two calls already raises,
    and so does a call whose delete is interrupted.  For the apply hook: a
    loader that is interrupted makes the call raise. *)
Lemma reverse_twice_can_raise :
  (reverse_initial_safe_data (seed_django None no_failure)
     (apps_without ("history", "SafeContract")) tt
     (at_start populated)).1 =
    Raises (ExceptionInstance "LookupError") ∧
  (let dj := seed_django None
               (fails_on ("history", "Chain")
                  (BaseExceptionOnly "KeyboardInterrupt")) in
   let first := reverse_initial_safe_data dj installed_apps tt
                  (at_start populated) in
   first.1 = Raises (BaseExceptionOnly "KeyboardInterrupt") ∧
   (reverse_initial_safe_data dj installed_apps tt first.2).1 =
     Raises (BaseExceptionOnly "KeyboardInterrupt")) ∧
  (let dj := seed_django (Some (BaseExceptionOnly "KeyboardInterrupt"))
               no_failure in
   let first := load_initial_safe_data dj installed_apps tt
                  (at_start with_fixture) in
   first.1 = Raises (BaseExceptionOnly "KeyboardInterrupt") ∧
   (load_initial_safe_data dj installed_apps tt first.2).1 =
     Raises (BaseExceptionOnly "KeyboardInterrupt")).
Proof. repeat split; by vm_compute. Qed.

(** ** Further properties of the two hooks *)

Lemma delete_order_lookup_order : delete_order ≡ₚ lookup_order.
Proof. apply (bool_decide_unpack _). by vm_compute. Qed.

Section FurtherLemmas.
Context (dj : Django) {SchemaEditor : Type}.
Implicit Types (apps : Apps) (se : SchemaEditor) (w : World).

(** A block over at least one model runs at least one delete. *)
Lemma deletes_run_pos (m : Model) (ms : list Model) (s : Store) :
  (1 ≤ deletes_run dj (m :: ms) s)%nat.
Proof.
  simpl. destruct (queryset_delete dj m s) as [[[]|e] s1]; lia.
Qed.

(** Through a block of deletes that only remove, every table keeps a
    sublist of its rows. *)
Lemma delete_in_order_sublist (ms : list Model) (s : Store) (m : Model) :
  only_removes dj →
  rows (delete_in_order dj ms s).2 m `sublist_of` rows s m.
Proof.
  intros Hrm. revert s. induction ms as [|m0 ms IH]; intros s; [done|].
  simpl. pose proof (Hrm m0 s m) as Hsub.
  destruct (queryset_delete dj m0 s) as [[[]|e0] s1]; simpl in *; [|done].
  by etrans; [apply IH|].
Qed.

(** The hook when a lookup raises. *)
Lemma reverse_lookup_raise apps se w (i : nat) (mn : Model) (e : PyExc) :
  lookup_order !! i = Some mn →
  (∀ mn', mn' ∈ take i lookup_order →
          returns_normally (get_model apps mn'.1 mn'.2) = true) →
  get_model apps mn.1 mn.2 = Raises e →
  reverse_initial_safe_data dj apps se w =
    (Raises e,
     {| store := store w;
        trace := trace w ++ lookup_events (take (S i) lookup_order) |}).
Proof.
  intros Hi Hbefore Hraise.
  do 6 (try destruct i as [|i]); try done;
    simpl in Hi; injection Hi as <-; simpl in Hraise;
    unfold reverse_initial_safe_data, apps_get_model, mbind, Py_bind;
    repeat match goal with
      | |- context [get_model apps ?a ?n] =>
          first [ rewrite Hraise
                | rewrite (model_of_returns apps a n)
                    by (apply (Hbefore (a, n));
                        apply (bool_decide_unpack _); by vm_compute) ]
      end;
    unfold log; simpl; rewrite <- ?app_assoc; done.
Qed.

(** Either the six lookups return and the block of deletes runs under the
    handler, or the first lookup that raises ends the hook. *)
Lemma reverse_cases apps se w :
  (lookups_return apps ∧
   reverse_initial_safe_data dj apps se w =
     (swallow
        (delete_in_order dj (model_of apps <$> delete_order) (store w)).1,
      {| store :=
           (delete_in_order dj (model_of apps <$> delete_order)
              (store w)).2;
         trace := trace w ++ lookup_events lookup_order ++
                  (DeleteAll <$>
                     take (deletes_run dj (model_of apps <$> delete_order)
                             (store w))
                       (model_of apps <$> delete_order)) |})) ∨
  (∃ i mn e,
     lookup_order !! i = Some mn ∧
     get_model apps mn.1 mn.2 = Raises e ∧
     reverse_initial_safe_data dj apps se w =
       (Raises e,
        {| store := store w;
           trace := trace w ++ lookup_events (take (S i) lookup_order) |})).
Proof.
  destruct (decide (Forall (λ mn, returns_normally
                                    (get_model apps mn.1 mn.2) = true)
                      lookup_order)) as [Hall|Hnot].
  - left. rewrite Forall_forall in Hall.
    assert (lookups_return apps) as Hl
      by (intros a n Hin; apply (Hall (a, n) Hin)).
    split; [done|]. by apply reverse_run.
  - right. rewrite Forall_forall in Hnot.
    destruct (first_failing_lookup apps lookup_order Hnot)
      as (i & mn & e & Hi & Hbefore & Hraise).
    exists i, mn, e. split; [done|]. split; [done|].
    by apply (reverse_lookup_raise apps se w i mn e).
Qed.

End FurtherLemmas.

(** X1.  The apply hook raises exactly when the fixture exists and the
    loader raises an exception outside the [Exception] hierarchy, and what
    it raises is the loader's exception: whatever the loader and the store,
    it never raises an exception that derives from [Exception] and never
    raises when the fixture is absent. *)
Theorem load_raises_only_outside_Exception (dj : Django)
    {SchemaEditor : Type} (apps : Apps) (se : SchemaEditor) (w : World)
    (e : PyExc) :
  (load_initial_safe_data dj apps se w).1 = Raises e ↔
  is_Some (files (store w) !! fixture_file) ∧
  (call_command dj "loaddata" [fixture_file] 0 (store w)).1 = Raises e ∧
  isinstance_Exception e = false.
Proof.
  destruct (files (store w) !! fixture_file) as [c|] eqn:Hf.
  - rewrite load_present by (by exists c). simpl.
    destruct (call_command dj "loaddata" [fixture_file] 0 (store w))
      as [[[]|e0] s']; simpl.
    + split; [done|]. by intros (_ & ? & _).
    + destruct (isinstance_Exception e0) eqn:He0.
      * split; [done|]. intros (_ & [= ->] & He). congruence.
      * split; [intros [= ->]; by eauto|]. by intros (_ & [= ->] & _).
  - rewrite load_absent by done. simpl.
    split; [done|]. by intros ([? ?] & _).
Qed.

Lemma load_raises_only_outside_Exception_witness :
  (load_initial_safe_data
     (seed_django (Some (BaseExceptionOnly "SystemExit")) no_failure)
     installed_apps tt (at_start with_fixture)).1 =
    Raises (BaseExceptionOnly "SystemExit") ∧
  ¬ (load_initial_safe_data (seed_django None no_failure) installed_apps tt
       (at_start seeded_once)).1 =
      Raises (ExceptionInstance "IntegrityError").
Proof.
  split.
  - apply (load_raises_only_outside_Exception
             (seed_django (Some (BaseExceptionOnly "SystemExit")) no_failure)
             installed_apps tt (at_start with_fixture)).
    split; [by exists "seed"|]. split; reflexivity.
  - intros H.
    apply (load_raises_only_outside_Exception (seed_django None no_failure)
             installed_apps tt (at_start seeded_once)) in H.
    destruct H as (_ & _ & H). discriminate H.
Defined.

(** X2.  Whatever the registry, the ORM and the store, an exception that
    leaves the reverse hook is either the exception of one of the six
    [get_model] lookups, or an exception outside the [Exception] hierarchy
    raised by the delete of one of the models the lookups returned.  An
    [Exception] raised by a delete never leaves the hook. *)
Theorem reverse_raises_only (dj : Django) {SchemaEditor : Type}
    (apps : Apps) (se : SchemaEditor) (w : World) (e : PyExc) :
  (reverse_initial_safe_data dj apps se w).1 = Raises e →
  (∃ mn, mn ∈ lookup_order ∧ get_model apps mn.1 mn.2 = Raises e) ∨
  (isinstance_Exception e = false ∧
   ∃ m s, m ∈ model_of apps <$> delete_order ∧
          (queryset_delete dj m s).1 = Raises e).
Proof.
  destruct (reverse_cases dj apps se w)
    as [[_ ->]|(i & mn & e' & Hi & Hraise & ->)]; cbn [fst].
  - destruct (delete_in_order dj (model_of apps <$> delete_order) (store w))
      as [[[]|e0] s'] eqn:Hd; cbn [fst swallow]; [done|].
    destruct (isinstance_Exception e0) eqn:He0; [done|].
    intros [= ->]. right. split; [done|].
    destruct (delete_in_order_raises_from _ _ _ _ _ Hd)
      as (m & s0 & Hin & Hq).
    exists m, s0. split; [done|]. by rewrite Hq.
  - intros [= ->]. left. exists mn. split; [|done].
    by apply list_elem_of_lookup_2 with i.
Qed.

Lemma reverse_raises_only_witness :
  (reverse_initial_safe_data
     (seed_django None
        (fails_on ("history", "ProxyFactory")
           (BaseExceptionOnly "KeyboardInterrupt")))
     installed_apps tt (at_start populated)).1 =
    Raises (BaseExceptionOnly "KeyboardInterrupt") ∧
  ((∃ mn, mn ∈ lookup_order ∧
          get_model installed_apps mn.1 mn.2 =
            Raises (BaseExceptionOnly "KeyboardInterrupt")) ∨
   (isinstance_Exception (BaseExceptionOnly "KeyboardInterrupt") = false ∧
    ∃ m s, m ∈ model_of installed_apps <$> delete_order ∧
           (queryset_delete
              (seed_django None
                 (fails_on ("history", "ProxyFactory")
                    (BaseExceptionOnly "KeyboardInterrupt"))) m s).1 =
             Raises (BaseExceptionOnly "KeyboardInterrupt"))).
Proof.
  assert ((reverse_initial_safe_data
             (seed_django None
                (fails_on ("history", "ProxyFactory")
                   (BaseExceptionOnly "KeyboardInterrupt")))
             installed_apps tt (at_start populated)).1 =
            Raises (BaseExceptionOnly "KeyboardInterrupt")) as Hrun
    by (vm_compute; reflexivity).
  split; [exact Hrun|].
  exact (reverse_raises_only _ installed_apps tt (at_start populated) _ Hrun).
Defined.

(** X3.  With the six models resolved, whatever the ORM does, the reverse
    hook makes the six lookups first and then issues the deletes of a
    non-empty prefix of the fixed order: at least one delete, at most six,
    none repeated, none out of order and no lookup after a delete. *)
Theorem reverse_deletes_prefix (dj : Django) {SchemaEditor : Type}
    (apps : Apps) (se : SchemaEditor) (w : World) :
  resolves apps →
  ∃ k, (1 ≤ k ≤ 6)%nat ∧
       trace (reverse_initial_safe_data dj apps se w).2 =
         trace w ++ lookup_events lookup_order ++
         (DeleteAll <$> take k delete_order).
Proof.
  intros Hr. exists (deletes_run dj delete_order (store w)). split.
  - split; [apply deletes_run_pos|apply (deletes_run_le dj delete_order)].
  - by rewrite reverse_run_resolved.
Qed.

Lemma reverse_deletes_prefix_witness :
  ∃ k, (1 ≤ k ≤ 6)%nat ∧
       trace (reverse_initial_safe_data
                (seed_django None abi_integrity_error) installed_apps tt
                (at_start populated)).2 =
         trace (at_start populated) ++ lookup_events lookup_order ++
         (DeleteAll <$> take k delete_order).
Proof.
  exact (reverse_deletes_prefix (seed_django None abi_integrity_error)
           installed_apps tt (at_start populated) installed_apps_resolves).
Defined.

(** X4.  With an ORM whose deletes insert nothing, the reverse hook inserts
    nothing: for every registry (resolving or not), every store and every
    table, of the six or not, the rows afterwards are a sublist of the rows
    before, whether the hook returns, swallows an error or raises. *)
Theorem reverse_never_inserts (dj : Django) {SchemaEditor : Type}
    (apps : Apps) (se : SchemaEditor) (w : World) (m : Model) :
  only_removes dj →
  rows (store (reverse_initial_safe_data dj apps se w).2) m
    `sublist_of` rows (store w) m.
Proof.
  intros Hrm.
  destruct (reverse_cases dj apps se w)
    as [[_ ->]|(i & mn & e' & Hi & Hraise & ->)]; cbn [snd store].
  - by apply delete_in_order_sublist.
  - done.
Qed.

Lemma reverse_never_inserts_witness :
  rows (store (reverse_initial_safe_data
                 (seed_django None abi_integrity_error) installed_apps tt
                 (at_start populated)).2) ("history", "Chain")
    `sublist_of` rows populated ("history", "Chain").
Proof.
  apply (reverse_never_inserts (seed_django None abi_integrity_error)
           installed_apps tt (at_start populated) ("history", "Chain")).
  apply table_delete_only_removes.
Defined.

(** X5.  With the six models resolved: if the deletes before position [k]
    return and the delete at [k] raises an exception outside the
    [Exception] hierarchy, the reverse hook raises that exception; the
    deletes after [k] are not issued and the store is left as the
    interrupted delete left it, with the earlier deletes done. *)
Theorem reverse_interrupted_at (dj : Django) {SchemaEditor : Type}
    (apps : Apps) (se : SchemaEditor) (w : World)
    (k : nat) (m : Model) (e : PyExc) (sk s' : Store) :
  resolves apps →
  delete_order !! k = Some m →
  delete_in_order dj (take k delete_order) (store w) = (Returns tt, sk) →
  queryset_delete dj m sk = (Raises e, s') →
  isinstance_Exception e = false →
  reverse_initial_safe_data dj apps se w =
    (Raises e,
     {| store := s';
        trace := trace w ++ lookup_events lookup_order ++
                 (DeleteAll <$> take (S k) delete_order) |}).
Proof.
  intros Hr Hk Hpre Hat He.
  rewrite reverse_run_resolved by done.
  destruct (delete_in_order_raise_at dj _ _ _ _ _ _ _ Hk Hpre Hat)
    as [-> ->].
  simpl. by rewrite He.
Qed.

Lemma reverse_interrupted_at_witness :
  reverse_initial_safe_data
    (seed_django None
       (fails_on ("contracts", "ContractAbi")
          (BaseExceptionOnly "KeyboardInterrupt")))
    installed_apps tt (at_start populated) =
    (Raises (BaseExceptionOnly "KeyboardInterrupt"),
     {| store := populated_less_safes;
        trace := lookup_events lookup_order ++
                 [DeleteAll ("history", "SafeContract");
                  DeleteAll ("contracts", "Contract");
                  DeleteAll ("contracts", "ContractAbi")] |}).
Proof.
  exact (reverse_interrupted_at
           (seed_django None
              (fails_on ("contracts", "ContractAbi")
                 (BaseExceptionOnly "KeyboardInterrupt")))
           installed_apps tt (at_start populated) 2
           ("contracts", "ContractAbi")
           (BaseExceptionOnly "KeyboardInterrupt")
           populated_less_safes populated_less_safes
           installed_apps_resolves eq_refl eq_refl eq_refl eq_refl).
Defined.

Lemma count_rows_empty (s : Store) :
  (∀ m, m ∈ delete_order → rows s m = []) → count_rows s = 0%nat.
Proof.
  unfold count_rows. induction delete_order as [|m ms IH]; intros H; [done|].
  simpl. rewrite (H m) by apply list_elem_of_here.
  rewrite IH; [done|]. intros m' Hin. apply H. by apply list_elem_of_further.
Qed.

(** X6.  The reverse hook is not the inverse of the apply hook.  When the
    apply hook loads a fixture and the reverse hook then runs with every
    delete returning (deletes that empty their table and insert nothing),
    both return normally and the six collections end up empty whatever they
    held before the load: a collection is back to its rows from before the
    load only if it had none. *)
Theorem reverse_after_load_wipes (dj : Django) {SchemaEditor : Type}
    (apps : Apps) (se : SchemaEditor) (w : World)
    (recs : list (Model * Row)) (s2 : Store) :
  is_Some (files (store w) !! fixture_file) →
  call_command dj "loaddata" [fixture_file] 0 (store w) =
    (Returns tt, save_records recs (store w)) →
  resolves apps → empties_on_success dj → only_removes dj →
  delete_in_order dj delete_order (save_records recs (store w)) =
    (Returns tt, s2) →
  ∃ w1,
    load_initial_safe_data dj apps se w = (Returns tt, w1) ∧
    (reverse_initial_safe_data dj apps se w1).1 = Returns tt ∧
    store (reverse_initial_safe_data dj apps se w1).2 = s2 ∧
    count_rows s2 = 0%nat ∧
    (∀ m, m ∈ delete_order →
          rows s2 m = [] ∧
          (rows s2 m = rows (store w) m ↔ rows (store w) m = [])).
Proof.
  intros Hfile Hload Hr Hemp Hrm Hdel.
  assert (∀ m, m ∈ delete_order → rows s2 m = []) as Hempty
    by (by apply (delete_in_order_empties dj delete_order
                    (save_records recs (store w)))).
  eexists. split.
  - rewrite load_present by done. rewrite Hload. reflexivity.
  - rewrite reverse_run_resolved by done. cbn [fst snd store].
    rewrite Hdel. cbn [fst snd swallow].
    split; [done|]. split; [done|]. split; [by apply count_rows_empty|].
    intros m Hin. rewrite (Hempty m Hin). split; [done|].
    split; intros H; by rewrite H.
Qed.

Lemma reverse_after_load_wipes_witness :
  rows with_fixture_and_safe ("history", "SafeContract") = [safe_1] ∧
  ∃ w1,
    load_initial_safe_data (seed_django None no_failure) installed_apps tt
      (at_start with_fixture_and_safe) = (Returns tt, w1) ∧
    (reverse_initial_safe_data (seed_django None no_failure) installed_apps
       tt w1).1 = Returns tt ∧
    store (reverse_initial_safe_data (seed_django None no_failure)
             installed_apps tt w1).2 =
      (delete_in_order (seed_django None no_failure) delete_order
         (save_records seed_records with_fixture_and_safe)).2 ∧
    count_rows (delete_in_order (seed_django None no_failure) delete_order
                  (save_records seed_records with_fixture_and_safe)).2 =
      0%nat ∧
    (∀ m, m ∈ delete_order →
          rows (delete_in_order (seed_django None no_failure) delete_order
                  (save_records seed_records with_fixture_and_safe)).2 m =
            [] ∧
          (rows (delete_in_order (seed_django None no_failure) delete_order
                   (save_records seed_records with_fixture_and_safe)).2 m =
             rows (store (at_start with_fixture_and_safe)) m ↔
           rows (store (at_start with_fixture_and_safe)) m = [])).
Proof.
  split; [reflexivity|].
  apply (reverse_after_load_wipes (seed_django None no_failure)
           installed_apps tt (at_start with_fixture_and_safe) seed_records
           (delete_in_order (seed_django None no_failure) delete_order
              (save_records seed_records with_fixture_and_safe)).2).
  - by exists "seed".
  - reflexivity.
  - apply installed_apps_resolves.
  - apply table_delete_empties.
  - apply table_delete_only_removes.
  - reflexivity.
Defined.

(** X7.  Whatever models the registry hands out, when the six lookups
    return and no delete raises, the deletes the reverse hook issues are a
    rearrangement of the models the lookups returned: every model looked up
    is deleted, as many times as it was returned, and nothing else is. *)
Theorem reverse_deletes_what_it_looked_up (dj : Django)
    {SchemaEditor : Type} (apps : Apps) (se : SchemaEditor) (w : World) :
  lookups_return apps →
  (delete_in_order dj (model_of apps <$> delete_order) (store w)).1 =
    Returns tt →
  ∃ ds, trace (reverse_initial_safe_data dj apps se w).2 =
          trace w ++ lookup_events lookup_order ++ (DeleteAll <$> ds) ∧
        ds ≡ₚ model_of apps <$> lookup_order.
Proof.
  intros Hl Hrun. exists (model_of apps <$> delete_order). split.
  - rewrite reverse_run by done. cbv zeta. cbn [snd trace].
    destruct (delete_in_order dj (model_of apps <$> delete_order) (store w))
      as [o s'] eqn:Hd. cbn [fst] in Hrun. subst o.
    rewrite (deletes_run_all dj _ _ _ Hd).
    by rewrite firstn_all.
  - by rewrite delete_order_lookup_order.
Qed.

Lemma reverse_deletes_what_it_looked_up_witness :
  ∃ ds, trace (reverse_initial_safe_data (seed_django None no_failure)
                 aliasing_apps tt (at_start populated)).2 =
          trace (at_start populated) ++ lookup_events lookup_order ++
          (DeleteAll <$> ds) ∧
        ds ≡ₚ model_of aliasing_apps <$> lookup_order.
Proof.
  apply (reverse_deletes_what_it_looked_up (seed_django None no_failure)
           aliasing_apps tt (at_start populated)).
  - intros a n _. reflexivity.
  - reflexivity.
Defined.
